(** * Integral NDVI trend: significance mask and export supervision

    A shallow embedding of [integral_trends/src/main.py]: the table of
    Kendall coefficients, the per-pixel masking expression handed to the
    export, the loop that polls the export task, and the [run] entry
    point reading the request parameters. *)

From Stdlib Require Import ZArith QArith Qabs String List Sorted Lia.
From stdpp Require Import base option list strings gmap pretty.
Import ListNotations.

Local Open Scope string_scope.
Set Warnings "-register-all".

(** ** Python values

    The values that travel through the request dictionary, the task
    status dictionary and [json.loads]. Floats are carried as exact
    rationals: the code only compares them and passes them on. *)

Inductive pyval : Type :=
| PyNone
| PyInt (z : Z)
| PyFloat (q : Q)
| PyStr (s : string)
| PyList (items : list pyval)
| PyDict (items : list (string * pyval)).

(** [v == 'text'] for a string literal on the right. *)
Definition py_eq_str (v : pyval) (text : string) : bool :=
  match v with
  | PyStr s => String.eqb s text
  | _ => false
  end.

(** [d.get(key, dflt)]: the default is used only when the key is absent. *)
Definition dict_get (d : gmap string pyval) (key : string) (dflt : pyval) : pyval :=
  default dflt (d !! key).

(** Lookup in a dictionary literal produced by [json.loads]. *)
Fixpoint assoc_get (key : string) (items : list (string * pyval)) : option pyval :=
  match items with
  | [] => None
  | (k, v) :: rest => if String.eqb k key then Some v else assoc_get key rest
  end.

(** [v[key]] on a dictionary and [v[i]] on a list. *)
Definition py_key (key : string) (v : pyval) : option pyval :=
  match v with
  | PyDict items => assoc_get key items
  | _ => None
  end.

Definition py_index (i : nat) (v : pyval) : option pyval :=
  match v with
  | PyList items => items !! i
  | _ => None
  end.

(** [collection['features'][i]['properties']['name']] of a GeoJSON
    feature collection. *)
Definition feature_name (i : nat) (collection : pyval) : option pyval :=
  features ← py_key "features" collection;
  feature ← py_index i features;
  properties ← py_key "properties" feature;
  py_key "name" properties.

(** ** The Earth Engine operations the source calls

    Client objects of the [ee] package are descriptions of a computation;
    building one never fails on the client. What is modelled here is the
    value such a description denotes once evaluated: a single-band
    image is a partial map from pixels to numbers, where [None] is a
    masked (missing) pixel. *)

Module ee.

Definition pixel : Type := (Z * Z)%type.

Definition Image : Type := pixel -> option Q.

(** A number used where an image is expected: defined everywhere. *)
Definition constant (q : Q) : Image := fun _ => Some q.

(** [Image.abs()] keeps the mask. *)
Definition abs (img : Image) : Image := fun p => Qabs <$> img p.

(** [Image.lte(other)]: 1 where the first value is less than or equal
    to the second, 0 elsewhere; masked where either operand is. *)
Definition lte (a b : Image) : Image := fun p =>
  match a p, b p with
  | Some x, Some y => Some (if Qle_bool x y then 1%Q else 0%Q)
  | _, _ => None
  end.

(** [Image.where(test, value)]: where [test] is non-zero the pixel of
    [value] replaces the input pixel. Where [test] or [value] is masked
    the input value is used; a masked input pixel stays masked. *)
Definition where_ (input test value : Image) : Image := fun p =>
  match input p with
  | None => None
  | Some v =>
      match test p, value p with
      | Some t, Some r => if Qeq_bool t 0 then Some v else Some r
      | _, _ => Some v
      end
  end.

(** [Image.unmask(value)]: masked pixels take the pixel of [value]. *)
Definition unmask (input value : Image) : Image := fun p =>
  match input p with
  | Some v => Some v
  | None => value p
  end.

(** [Array.get([i])] on a one-dimensional array: the element at
    position [i], counted from 0; a position outside [0 .. length-1]
    has no element and the evaluation is an error ([None]). *)
Definition Array_get (arr : list Z) (i : Z) : option Z :=
  if (i <? 0)%Z then None else arr !! Z.to_nat i.

End ee.

(** ** Constants of the module *)

(** Google cloud storage bucket for output. *)
Definition BUCKET : string := "ldmt".

(** Kendall parameter values for a significance of 0.05. *)
Definition coefficients : list Z :=
  [4; 6; 9; 11; 14; 16; 19; 21; 24; 26; 31; 33; 36;
   40; 43; 47; 50; 54; 59; 63; 66; 70; 75; 79; 84;
   88; 93; 97; 102; 106; 111; 115; 120; 126; 131;
   137; 142]%Z.

(** [period = year_end - year_start + 1]. *)
Definition period_of (year_start year_end : Z) : Z :=
  (year_end - year_start + 1)%Z.

(** [kendall = coefficients.get([period - 4])]. *)
Definition kendall (period : Z) : option Z :=
  ee.Array_get coefficients (period - 4)%Z.

(** The no-data value written by the three [-99999] literals. *)
Definition NODATA : Q := (-99999 # 1)%Q.

(** The literal [0.000001]. *)
Definition EPSILON : Q := (1 # 1000000)%Q.

(** The ['image'] entry of the export dictionary, for a slope image
    [scale] (the ['scale'] band of the linear fit) and the Mann-Kendall
    image [mk_trend]:

    [scale.where(mk_trend.abs().lte(kendall), -99999)
          .where(scale.abs().lte(0.000001), -99999).unmask(-99999)]. *)
Definition masked_trend (scale mk_trend : ee.Image) (k : Z) : ee.Image :=
  ee.unmask
    (ee.where_
       (ee.where_ scale
          (ee.lte (ee.abs mk_trend) (ee.constant (inject_Z k)))
          (ee.constant NODATA))
       (ee.lte (ee.abs scale) (ee.constant EPSILON))
       (ee.constant NODATA))
    (ee.constant NODATA).

(** The image expression is an error when the coefficient lookup is. *)
Definition export_image (scale mk_trend : ee.Image) (period : Z) : option ee.Image :=
  masked_trend scale mk_trend <$> kendall period.

(** ** Collaborators

    Code that lives outside this module: the [landdegradation] package
    and the interpreter's rendering of floats and containers. They are
    parameters of the development. *)

Class Collaborators : Type := {
  Collection : Type;
  Region : Type;
  (** [preproc.modis_ndvi_annual_integral(year_start, year_end)] *)
  modis_ndvi_annual_integral : Z -> Z -> Collection;
  (** [.select(['year', 'ndvi']).reduce(ee.Reducer.linearFit())
       .select('scale')] *)
  linearFit_scale : Collection -> ee.Image;
  (** [stats.mann_kendall(.select('ndvi'))] *)
  mann_kendall : Collection -> ee.Image;
  (** The ['image'] expression evaluated when one of the years is a
      float: the period and the position handed to [Array.get] are then
      floats, computed in floating point, which is not modelled here. *)
  float_years_image : pyval -> pyval -> option ee.Image;
  (** [util.get_coords(geojson)] *)
  get_coords : pyval -> Region;
  (** [str] of a float, a list or a dict *)
  py_repr : pyval -> string
}.

(** ** The remote task, the logger and the clock *)

(** What [task.status()] answers at its n-th call (counted from 0). *)
Definition remote : Type := nat -> gmap string pyval.

(** [sleep(5)] *)
Definition POLL_INTERVAL : Z := 5%Z.

(** The state read number [n] (from 0), when the first state read is
    status call [c]: the loop asks twice per iteration, first for the
    progress and then for the state. *)
Definition state_at (r : remote) (c n : nat) : pyval :=
  dict_get (r (2 * n + c)%nat) "state" PyNone.

(** The progress read in iteration [i] (from 0) of the loop. *)
Definition progress_at (r : remote) (c i : nat) : pyval :=
  dict_get (r (S (2 * i + c))) "progress" (PyFloat 0).

Section Program.

Context {collab : Collaborators}.

(** The keyword arguments of [Export.image.toCloudStorage]. *)
Record export_request : Type := {
  image : option ee.Image;
  description : pyval;
  fileNamePrefix : pyval;
  bucket : string;
  maxPixels : Z;
  scale : Z;
  region : Region
}.

(** What the function does to the outside, in order. *)
Inductive event : Type :=
| EvStart (req : export_request)   (* task.start() *)
| EvStatus                         (* task.status() *)
| EvProgress (p : pyval)           (* logger.send_progress(p) *)
| EvSleep (seconds : Z).           (* sleep(seconds) *)

Record world : Type := {
  queries : nat;          (* status calls answered so far *)
  trace : list event
}.

Definition initial : world := {| queries := 0; trace := [] |}.

(** The exception the model can raise: arithmetic on a year that is not
    a number. *)
Inductive pyexn : Type := TypeError.

(** How a call ends. [Diverging] stands for a loop that is still
    running when the fuel of the model is used up. *)
Inductive outcome : Type :=
| Returned (location : string)
| Raised (e : pyexn)
| Diverging.

(** *** A state monad over the world *)

Definition M (A : Type) : Type := world -> A * world.

#[local] Instance M_ret : MRet M := fun A (a : A) w => (a, w).
#[local] Instance M_bind : MBind M := fun A B (f : A -> M B) (m : M A) w =>
  let (a, w') := m w in f a w'.

Definition emit (e : event) : M unit := fun w =>
  (tt, {| queries := queries w; trace := trace w ++ [e] |}).

Definition task_start (req : export_request) : M unit := emit (EvStart req).

Definition task_status (r : remote) : M (gmap string pyval) := fun w =>
  (r (queries w), {| queries := S (queries w); trace := trace w ++ [EvStatus] |}).

Definition send_progress (p : pyval) : M unit := emit (EvProgress p).

Definition sleep (seconds : Z) : M unit := emit (EvSleep seconds).

(** *** Formatting *)

(** [str(v)], as [format] applies it to a [{}] field. *)
Definition py_str (v : pyval) : string :=
  match v with
  | PyNone => "None"
  | PyInt z => pretty z
  | PyStr s => s
  | _ => py_repr v
  end.

(** ["https://{}.storage.googleapis.com/{}.tif".format(a, b)] *)
Definition format_location (a b : string) : string :=
  "https://" ++ a ++ ".storage.googleapis.com/" ++ b ++ ".tif".

(** *** The polling loop *)

(** [task_state == 'READY' or task_state == 'RUNNING'] *)
Definition polling (task_state : pyval) : bool :=
  py_eq_str task_state "READY" || py_eq_str task_state "RUNNING".

(** The [while] loop of [integral_trend], entered with the state read
    last. It answers [true] when the loop has exited and [false] when
    [fuel] iterations were not enough. *)
Fixpoint poll (r : remote) (fuel : nat) (task_state : pyval) : M bool :=
  if polling task_state then
    match fuel with
    | O => mret false
    | S fuel' =>
        st ← task_status r;
        let task_progress := dict_get st "progress" (PyFloat 0) in
        _ ← send_progress task_progress;
        st' ← task_status r;
        _ ← sleep POLL_INTERVAL;
        poll r fuel' (dict_get st' "state" PyNone)
    end
  else mret true.

(** State read [n] is the first one that is neither ['READY'] nor
    ['RUNNING']. *)
Definition exits_at (r : remote) (c n : nat) : bool :=
  forallb (fun i => polling (state_at r c i)) (seq 0 n)
  && negb (polling (state_at r c n)).

(** The events of the first [n] iterations of the loop. *)
Definition loop_trace (r : remote) (c n : nat) : list event :=
  flat_map
    (fun i => [EvStatus; EvProgress (progress_at r c i); EvStatus;
               EvSleep POLL_INTERVAL])
    (seq 0 n).

(** The progress values handed to the logger, in order. *)
Definition reports (t : list event) : list pyval :=
  omap (fun e => match e with EvProgress p => Some p | _ => None end) t.

(** The waits, in order. *)
Definition sleeps (t : list event) : list Z :=
  omap (fun e => match e with EvSleep s => Some s | _ => None end) t.

(** The export requests sent out. *)
Definition submitted (t : list event) : list export_request :=
  omap (fun e => match e with EvStart req => Some req | _ => None end) t.

(** *** [integral_trend] *)

(** The dictionary [export] built by [integral_trend]. *)
Definition export (year_start year_end : Z) (geojson EXECUTION_ID : pyval)
    : export_request :=
  let ndvi_1yr_o := modis_ndvi_annual_integral year_start year_end in
  let lf_scale := linearFit_scale ndvi_1yr_o in
  let period := period_of year_start year_end in
  let mk_trend := mann_kendall ndvi_1yr_o in
  {| image := export_image lf_scale mk_trend period;
     description := EXECUTION_ID;
     fileNamePrefix := EXECUTION_ID;
     bucket := BUCKET;
     maxPixels := 10000000000%Z;
     scale := 250%Z;
     region := get_coords geojson |}.

Definition integral_trend (r : remote) (fuel : nat)
    (year_start year_end : Z) (geojson EXECUTION_ID : pyval) : M outcome :=
  _ ← task_start (export year_start year_end geojson EXECUTION_ID);
  st ← task_status r;
  exited ← poll r fuel (dict_get st "state" PyNone);
  mret (if exited : bool
        then Returned (format_location BUCKET (py_str EXECUTION_ID))
        else Diverging).

(** *** [run] *)

Definition lonlat (lon lat : Z) : pyval :=
  PyList [PyFloat (lon # 1000000); PyFloat (lat # 1000000)].

(** The polygon of the [json.loads] literal, coordinates in
    millionths of a degree. *)
Definition default_ring : list pyval :=
[
 lonlat (-16713729) 13594959;
 lonlat (-17126107) 14373516;
 lonlat (-17625043) 14729541;
 lonlat (-17185173) 14919477;
 lonlat (-16700706) 15621527;
 lonlat (-16463098) 16135036;
 lonlat (-16120690) 16455663;
 lonlat (-15623666) 16369337;
 lonlat (-15135737) 16587282;
 lonlat (-14577348) 16598264;
 lonlat (-14099521) 16304302;
 lonlat (-13435738) 16039383;
 lonlat (-12830658) 15303692;
 lonlat (-12170750) 14616834;
 lonlat (-12124887) 13994727;
 lonlat (-11927716) 13422075;
 lonlat (-11553398) 13141214;
 lonlat (-11467899) 12754519;
 lonlat (-11513943) 12442988;
 lonlat (-11658301) 12386583;
 lonlat (-12203565) 12465648;
 lonlat (-12278599) 12354440;
 lonlat (-12499051) 12332090;
 lonlat (-13217818) 12575874;
 lonlat (-13700476) 12586183;
 lonlat (-15548477) 12628170;
 lonlat (-15816574) 12515567;
 lonlat (-16147717) 12547762;
 lonlat (-16677452) 12384852;
 lonlat (-16841525) 13151394;
 lonlat (-15931296) 13130284;
 lonlat (-15691001) 13270353;
 lonlat (-15511813) 13278570;
 lonlat (-15141163) 13509512;
 lonlat (-14712197) 13298207;
 lonlat (-14277702) 13280585;
 lonlat (-13844963) 13505042;
 lonlat (-14046992) 13794068;
 lonlat (-14376714) 13625680;
 lonlat (-14687031) 13630357;
 lonlat (-15081735) 13876492;
 lonlat (-15398770) 13860369;
 lonlat (-15624596) 13623587;
 lonlat (-16713729) 13594959
].

Definition default_poly : pyval :=
  PyDict
    [("type", PyStr "FeatureCollection");
     ("features",
      PyList
        [PyDict
           [("type", PyStr "Feature");
            ("id", PyStr "SEN");
            ("properties", PyDict [("name", PyStr "Senegal")]);
            ("geometry",
             PyDict
               [("type", PyStr "Polygon");
                ("coordinates", PyList [PyList default_ring])])]])].

(** [integral_trend] called with a float among its years. On the client
    the years only reach the collaborators and the image expression, so
    the call builds the request, starts the task, polls it and returns
    as it does for integer years. *)
Definition integral_trend_float (r : remote) (fuel : nat)
    (year_start year_end geojson EXECUTION_ID : pyval) : M outcome :=
  let export :=
    {| image := float_years_image year_start year_end;
       description := EXECUTION_ID;
       fileNamePrefix := EXECUTION_ID;
       bucket := BUCKET;
       maxPixels := 10000000000%Z;
       scale := 250%Z;
       region := get_coords geojson |} in
  _ ← task_start export;
  st ← task_status r;
  exited ← poll r fuel (dict_get st "state" PyNone);
  mret (if exited : bool
        then Returned (format_location BUCKET (py_str EXECUTION_ID))
        else Diverging).

(** [run(params, logger)]. [rnd] is the number [random.randint(1,
    1000000)] draws when it is called. [integral_trend] computes
    [year_end - year_start + 1] before it sends anything out: on two
    integers this is the integer period, on numbers of which one is a
    float it is a float and the call goes on, and on [None], strings,
    lists and dictionaries it raises [TypeError]. *)
Definition run (r : remote) (fuel : nat) (rnd : Z)
    (params : gmap string pyval) : M outcome :=
  let year_start := dict_get params "year_start" (PyInt 2003) in
  let year_end := dict_get params "year_end" (PyInt 2015) in
  let EXECUTION_ID :=
    if py_eq_str (dict_get params "ENV" PyNone) "dev"
    then PyStr (pretty rnd)
    else dict_get params "EXECUTION_ID" PyNone in
  let geojson := dict_get params "geojson" default_poly in
  match year_start, year_end with
  | PyInt ys, PyInt ye => integral_trend r fuel ys ye geojson EXECUTION_ID
  | PyInt _, PyFloat _ | PyFloat _, PyInt _ | PyFloat _, PyFloat _ =>
      integral_trend_float r fuel year_start year_end geojson EXECUTION_ID
  | _, _ => mret (Raised TypeError)
  end.

End Program.

(** ** Sample inputs

    A stand-in for the collaborators and a few scripted remote tasks, on
    which the results below are run. *)

Definition sample_collaborators : Collaborators :=
  {| Collection := Z * Z;
     Region := pyval;
     modis_ndvi_annual_integral := pair;
     linearFit_scale := fun _ => ee.constant (2 # 1000);
     mann_kendall := fun _ => ee.constant 45;
     float_years_image := fun _ _ => None;
     get_coords := fun geojson => geojson;
     py_repr := fun _ => "<object>" |}.

(** A status dictionary with a state and, possibly, a progress. *)
Definition status (state : string) (progress : option Q) : gmap string pyval :=
  match progress with
  | Some q => <["progress" := PyFloat q]> {["state" := PyStr state]}
  | None => {["state" := PyStr state]}
  end.

(** A remote that gives the listed answers in turn and [last] ever
    after. *)
Definition scripted (answers : list (gmap string pyval))
    (last : gmap string pyval) : remote :=
  fun n => nth n answers last.

(** State reads READY, RUNNING, RUNNING, COMPLETED; the progress reads
    in between report nothing, 1/2 and 3/4. *)
Definition remote_completed : remote :=
  scripted
    [status "READY" None;
     status "READY" None;
     status "RUNNING" (Some (1 # 4)%Q);
     status "RUNNING" (Some (1 # 2)%Q);
     status "RUNNING" (Some (3 # 4)%Q);
     status "RUNNING" (Some (3 # 4)%Q)]
    (status "COMPLETED" (Some 1%Q)).

(** State reads READY, RUNNING, RUNNING, FAILED. *)
Definition remote_failed : remote :=
  scripted
    [status "READY" None;
     status "READY" None;
     status "RUNNING" (Some (1 # 4)%Q);
     status "RUNNING" (Some (1 # 2)%Q);
     status "RUNNING" (Some (3 # 4)%Q);
     status "RUNNING" (Some (3 # 4)%Q)]
    (status "FAILED" None).

(** State reads READY, CANCELLED. *)
Definition remote_cancelled : remote :=
  scripted [status "READY" None; status "READY" None] (status "CANCELLED" None).

(** A task that is already over at the first state read. *)
Definition remote_done : remote := fun _ => status "COMPLETED" None.

(** A task that never leaves RUNNING. *)
Definition remote_busy : remote := fun _ => status "RUNNING" None.

(** A task whose status never carries a ['state'] entry. *)
Definition remote_no_state : remote := fun _ => {["progress" := PyFloat 1]}.

(** The same four state reads and three progress reads as
    [remote_completed], with everything the loop does not look at
    changed. *)
Definition remote_completed_noisy : remote :=
  scripted
    [status "READY" (Some (9 # 10)%Q);
     status "FAILED" None;
     status "RUNNING" None;
     status "COMPLETED" (Some (1 # 2)%Q);
     status "RUNNING" (Some (1 # 10)%Q);
     status "CANCELLED" (Some (3 # 4)%Q)]
    (status "COMPLETED" None).

(** A task that answers READY, RUNNING, RUNNING to the first three status
    queries and COMPLETED to every later one. *)
Definition remote_literal : remote :=
  scripted
    [status "READY" None;
     status "RUNNING" (Some (1 # 4)%Q);
     status "RUNNING" (Some (1 # 2)%Q)]
    (status "COMPLETED" (Some 1%Q)).

(** A task that says RUNNING at every even status query and COMPLETED
    at every odd one. *)
Definition remote_flicker : remote :=
  fun n => if Nat.even n then status "RUNNING" None
           else status "COMPLETED" (Some 1%Q).

(** * Properties *)

Local Close Scope string_scope.

(** ** The table of coefficients *)

Lemma Array_get_Some (arr : list Z) (i : Z) (v : Z) :
  ee.Array_get arr i = Some v <-> (0 <= i)%Z /\ arr !! Z.to_nat i = Some v.
Proof.
  unfold ee.Array_get. destruct (Z.ltb_spec i 0); split.
  - discriminate.
  - intros [Hi _]. lia.
  - auto.
  - now intros [_ Hv].
Qed.

Lemma Array_get_None (arr : list Z) (i : Z) :
  ee.Array_get arr i = None <-> (i < 0)%Z \/ (Z.of_nat (length arr) <= i)%Z.
Proof.
  unfold ee.Array_get. destruct (Z.ltb_spec i 0).
  - split; auto.
  - rewrite lookup_ge_None. split.
    + intros Hlen. right. lia.
    + intros [Hneg | Hlen]; lia.
Qed.

Lemma coefficients_length : length coefficients = 37%nat.
Proof. reflexivity. Qed.

(** C3, as the claim states it, fails: the table has 37 entries, so the
    period 40, which lies outside 4..39, still has a coefficient. *)
Lemma kendall_40_defined :
  (39 < 40)%Z /\ kendall 40 = Some 142%Z /\ length coefficients <> 36%nat.
Proof. split; [lia | split; [reflexivity | discriminate]]. Qed.

(** C3 (amended): the table has 37 entries; for every period from 4 to 40
    the lookup yields the entry at index [period - 4], and for every
    period below 4 or above 40 it yields none. *)
Theorem kendall_lookup (p : Z) :
  length coefficients = 37%nat /\
  ((4 <= p <= 40)%Z ->
     exists v, coefficients !! Z.to_nat (p - 4) = Some v /\ kendall p = Some v) /\
  ((p < 4 \/ 40 < p)%Z -> kendall p = None).
Proof.
  split; [reflexivity | split].
  - intros Hp.
    destruct (lookup_lt_is_Some_2 coefficients (Z.to_nat (p - 4))) as [v Hv].
    { rewrite coefficients_length. lia. }
    exists v. split; [exact Hv |].
    apply Array_get_Some. split; [lia | exact Hv].
  - intros Hp. apply Array_get_None. rewrite coefficients_length. lia.
Qed.

(** The amended C3 at the periods 40, 3 and 41. *)
Lemma kendall_lookup_witness :
  (exists v, coefficients !! Z.to_nat (40 - 4) = Some v /\ kendall 40 = Some v) /\
  kendall 3 = None /\ kendall 41 = None.
Proof.
  destruct (kendall_lookup 40) as (_ & Hin & _).
  destruct (kendall_lookup 3) as (_ & _ & Hlow).
  destruct (kendall_lookup 41) as (_ & _ & Hhigh).
  split; [apply Hin; lia | split; [apply Hlow | apply Hhigh]]; lia.
Defined.

(** C4, as the claim states it, fails: period 7 has the coefficient 11 and
    period 13 the coefficient 26. *)
Lemma kendall_7_13_not_14_40 :
  kendall 7 <> Some 14%Z /\ kendall 13 <> Some 40%Z.
Proof. split; discriminate. Qed.

(** C4 (amended): period 4 maps to 4, period 7 to 11 and period 13 to 26;
    the values 14 and 40 belong to the periods 8 and 17. *)
Theorem kendall_examples :
  kendall 4 = Some 4%Z /\ kendall 7 = Some 11%Z /\ kendall 13 = Some 26%Z /\
  kendall 8 = Some 14%Z /\ kendall 17 = Some 40%Z.
Proof. repeat (split; [reflexivity |]). reflexivity. Qed.

(** ** The masked image *)

Lemma Qle_bool_true (x y : Q) : (x <= y)%Q -> Qle_bool x y = true.
Proof. apply Qle_bool_iff. Qed.

Lemma Qle_bool_false (x y : Q) : (y < x)%Q -> Qle_bool x y = false.
Proof.
  intros Hlt. destruct (Qle_bool x y) eqn:Hle; [| reflexivity].
  apply Qle_bool_iff in Hle. exfalso. exact (Qlt_not_le _ _ Hlt Hle).
Qed.

(** The value of one pixel of the masked image, by cases on what the two
    inputs hold there. *)
Lemma masked_trend_unfold (slope mk_trend : ee.Image) (k : Z) (px : ee.pixel) :
  masked_trend slope mk_trend k px =
  match slope px with
  | None => Some NODATA
  | Some s =>
      if Qle_bool (Qabs s) EPSILON then Some NODATA
      else match mk_trend px with
           | Some z => if Qle_bool (Qabs z) (inject_Z k) then Some NODATA else Some s
           | None => Some s
           end
  end.
Proof.
  unfold masked_trend, ee.unmask, ee.where_, ee.lte, ee.abs, ee.constant.
  destruct (slope px) as [s |]; [| reflexivity].
  destruct (mk_trend px) as [z |]; simpl.
  - destruct (Qle_bool (Qabs z) (inject_Z k)), (Qle_bool (Qabs s) EPSILON);
      reflexivity.
  - destruct (Qle_bool (Qabs s) EPSILON); reflexivity.
Qed.

(** C1, as the claim states it, fails: a pixel whose statistic is missing
    while its slope is 1/2 keeps the slope instead of the no-data value. *)
Lemma masked_trend_missing_statistic :
  let slope : ee.Image := ee.constant (1 # 2)%Q in
  let mk_trend : ee.Image := fun _ => None in
  mk_trend (0, 0)%Z = None /\
  masked_trend slope mk_trend 26 (0, 0)%Z = Some (1 # 2)%Q /\
  masked_trend slope mk_trend 26 (0, 0)%Z <> Some NODATA.
Proof. split; [reflexivity | split; [reflexivity | discriminate]]. Qed.

(** C1 (amended): a pixel whose slope and statistic are both defined holds
    the slope when |statistic| > k and |slope| > 1e-6, and -99999 in every
    other case, the two boundaries included; a pixel whose slope is
    missing holds -99999; a pixel whose statistic is missing while its
    slope is defined is only tested on the slope. *)
Theorem masked_trend_pixel (slope mk_trend : ee.Image) (k : Z) (px : ee.pixel) :
  (slope px = None -> masked_trend slope mk_trend k px = Some NODATA) /\
  (forall s z, slope px = Some s -> mk_trend px = Some z ->
     ((inject_Z k < Qabs z)%Q /\ (EPSILON < Qabs s)%Q ->
        masked_trend slope mk_trend k px = Some s) /\
     ((Qabs z <= inject_Z k)%Q \/ (Qabs s <= EPSILON)%Q ->
        masked_trend slope mk_trend k px = Some NODATA)) /\
  (forall s, slope px = Some s -> mk_trend px = None ->
     ((EPSILON < Qabs s)%Q -> masked_trend slope mk_trend k px = Some s) /\
     ((Qabs s <= EPSILON)%Q -> masked_trend slope mk_trend k px = Some NODATA)).
Proof.
  rewrite masked_trend_unfold. split; [| split].
  - intros ->. reflexivity.
  - intros s z -> ->. split.
    + intros [Hz Hs].
      now rewrite (Qle_bool_false _ _ Hs), (Qle_bool_false _ _ Hz).
    + intros [Hz | Hs].
      * rewrite (Qle_bool_true _ _ Hz). now destruct (Qle_bool (Qabs s) EPSILON).
      * now rewrite (Qle_bool_true _ _ Hs).
  - intros s -> ->. split; intros Hs.
    + now rewrite (Qle_bool_false _ _ Hs).
    + now rewrite (Qle_bool_true _ _ Hs).
Qed.

(** The amended C1 for the critical value 40: statistic 45 keeps the
    slope 0.002, statistic 40 and a missing slope give -99999. *)
Lemma masked_trend_pixel_witness :
  masked_trend (ee.constant (2 # 1000)) (ee.constant 45) 40 (0, 0)%Z
    = Some (2 # 1000)%Q /\
  masked_trend (ee.constant (2 # 1000)) (ee.constant 40) 40 (0, 0)%Z
    = Some NODATA /\
  masked_trend (fun _ => None) (ee.constant 45) 40 (0, 0)%Z = Some NODATA.
Proof.
  split; [| split].
  - destruct (masked_trend_pixel (ee.constant (2 # 1000)) (ee.constant 45)
                40 (0, 0)%Z) as (_ & Hboth & _).
    destruct (Hboth (2 # 1000)%Q 45%Q eq_refl eq_refl) as [Hkeep _].
    apply Hkeep. split; reflexivity.
  - destruct (masked_trend_pixel (ee.constant (2 # 1000)) (ee.constant 40)
                40 (0, 0)%Z) as (_ & Hboth & _).
    destruct (Hboth (2 # 1000)%Q 40%Q eq_refl eq_refl) as [_ Hdrop].
    apply Hdrop. left. discriminate.
  - destruct (masked_trend_pixel (fun _ => None) (ee.constant 45)
                40 (0, 0)%Z) as (Hmissing & _).
    apply Hmissing. reflexivity.
Defined.

(** ** The polling loop *)

Section Loop.

Context {collab : Collaborators}.

Lemma state_at_shift (r : remote) (c i : nat) :
  state_at r (S (S c)) i = state_at r c (S i).
Proof. unfold state_at. do 2 f_equal. lia. Qed.

Lemma progress_at_shift (r : remote) (c i : nat) :
  progress_at r (S (S c)) i = progress_at r c (S i).
Proof. unfold progress_at. do 2 f_equal. lia. Qed.

Lemma forallb_seq_shift (f : nat -> bool) (a n : nat) :
  forallb f (seq (S a) n) = forallb (fun i => f (S i)) (seq a n).
Proof.
  revert a. induction n as [| n IH]; intros a; simpl; [reflexivity |].
  now rewrite IH.
Qed.

Lemma forallb_pointwise {A : Type} (f g : A -> bool) (l : list A) :
  (forall a, f a = g a) -> forallb f l = forallb g l.
Proof.
  intros Hfg. induction l as [| a l IH]; simpl; [reflexivity |].
  now rewrite Hfg, IH.
Qed.

Lemma flat_map_seq_shift {A : Type} (f : nat -> list A) (a n : nat) :
  flat_map f (seq (S a) n) = flat_map (fun i => f (S i)) (seq a n).
Proof.
  revert a. induction n as [| n IH]; intros a; simpl; [reflexivity |].
  now rewrite IH.
Qed.

Lemma exits_at_0 (r : remote) (c : nat) :
  exits_at r c 0 = negb (polling (state_at r c 0)).
Proof. reflexivity. Qed.

Lemma exits_at_S (r : remote) (c n : nat) :
  exits_at r c (S n) = polling (state_at r c 0) && exits_at r (S (S c)) n.
Proof.
  unfold exits_at. cbn [seq forallb]. rewrite forallb_seq_shift.
  rewrite <- andb_assoc. f_equal.
  rewrite <- state_at_shift. f_equal.
  apply forallb_pointwise. intros i. now rewrite state_at_shift.
Qed.

Lemma loop_trace_S (r : remote) (c n : nat) :
  loop_trace r c (S n) =
  [EvStatus; EvProgress (progress_at r c 0); EvStatus; EvSleep POLL_INTERVAL]
  ++ loop_trace r (S (S c)) n.
Proof.
  unfold loop_trace. cbn [seq flat_map]. f_equal.
  rewrite flat_map_seq_shift. apply flat_map_ext.
  intros i. now rewrite progress_at_shift.
Qed.

Lemma poll_0 (r : remote) (fuel : nat) (task_state : pyval) (w : world) :
  polling task_state = false -> poll r fuel task_state w = (true, w).
Proof. intros Hstop. destruct fuel; simpl; now rewrite Hstop. Qed.

Lemma poll_S (r : remote) (fuel : nat) (task_state : pyval) (w : world) :
  polling task_state = true ->
  poll r (S fuel) task_state w =
  poll r fuel (dict_get (r (S (queries w))) "state" PyNone)
    {| queries := S (S (queries w));
       trace := trace w ++
         [EvStatus;
          EvProgress (dict_get (r (queries w)) "progress" (PyFloat 0));
          EvStatus; EvSleep POLL_INTERVAL] |}.
Proof.
  intros Hgo. simpl. rewrite Hgo.
  unfold mbind, M_bind, task_status, send_progress, sleep, emit. simpl.
  now rewrite <- !app_assoc.
Qed.

(** When state read [n] is the first to leave the loop, [n] iterations
    are run, and any fuel from [n] on is enough. *)
Lemma poll_exits (r : remote) (n : nat) :
  forall (fuel c : nat) (w : world),
    queries w = S c -> exits_at r c n = true -> n <= fuel ->
    poll r fuel (state_at r c 0) w =
    (true, {| queries := S (2 * n + c);
              trace := trace w ++ loop_trace r c n |}).
Proof.
  induction n as [| n IH]; intros fuel c w Hq Hexit Hfuel.
  - rewrite exits_at_0 in Hexit. apply negb_true_iff in Hexit.
    rewrite poll_0 by exact Hexit.
    destruct w as [q t]; simpl in *; subst q.
    now rewrite app_nil_r.
  - rewrite exits_at_S in Hexit. apply andb_true_iff in Hexit as [Hgo Hexit].
    destruct fuel as [| fuel]; [lia |].
    rewrite poll_S by exact Hgo. rewrite Hq.
    change (dict_get (r (S (S c))) "state" PyNone) with (state_at r (S (S c)) 0).
    rewrite (IH fuel (S (S c))); [| reflexivity | exact Hexit | lia].
    cbn [queries trace]. rewrite loop_trace_S, <- app_assoc.
    do 2 f_equal. lia.
Qed.

(** While every state read says ['READY'] or ['RUNNING'], no amount of
    fuel lets the loop exit: [fuel] iterations are run and the loop is
    still going. *)
Lemma poll_runs_on (r : remote) (fuel : nat) :
  forall (c : nat) (w : world),
    queries w = S c -> (forall n, polling (state_at r c n) = true) ->
    poll r fuel (state_at r c 0) w =
    (false, {| queries := S (2 * fuel + c);
               trace := trace w ++ loop_trace r c fuel |}).
Proof.
  induction fuel as [| fuel IH]; intros c w Hq Hall.
  - simpl. rewrite (Hall 0).
    destruct w as [q t]; simpl in *; subst q.
    now rewrite app_nil_r.
  - rewrite poll_S by apply Hall. rewrite Hq.
    change (dict_get (r (S (S c))) "state" PyNone) with (state_at r (S (S c)) 0).
    rewrite (IH (S (S c))); [| reflexivity |].
    + cbn [queries trace]. rewrite loop_trace_S, <- app_assoc.
      do 2 f_equal. lia.
    + intros n. rewrite state_at_shift. apply Hall.
Qed.

(** An exit of the loop is always caused by a state read that is neither
    ['READY'] nor ['RUNNING']. *)
Lemma poll_exit_cause (r : remote) (fuel : nat) :
  forall (c : nat) (w : world),
    queries w = S c ->
    fst (poll r fuel (state_at r c 0) w) = true ->
    exists n, n <= fuel /\ exits_at r c n = true.
Proof.
  induction fuel as [| fuel IH]; intros c w Hq Hdone.
  - exists 0. split; [lia |]. rewrite exits_at_0.
    simpl in Hdone. destruct (polling (state_at r c 0)); [discriminate | reflexivity].
  - destruct (polling (state_at r c 0)) eqn:Hgo.
    + rewrite poll_S in Hdone by exact Hgo. rewrite Hq in Hdone.
      change (dict_get (r (S (S c))) "state" PyNone)
        with (state_at r (S (S c)) 0) in Hdone.
      apply IH in Hdone as (n & Hn & Hexit); [| reflexivity].
      exists (S n). split; [lia |]. rewrite exits_at_S, Hgo. exact Hexit.
    + exists 0. split; [lia |]. now rewrite exits_at_0, Hgo.
Qed.

(** Some state read leaves the loop exactly when there is a first one. *)
Lemma exits_at_first (r : remote) (c n : nat) :
  polling (state_at r c n) = false -> exists m, m <= n /\ exits_at r c m = true.
Proof.
  revert c. induction n as [| n IH]; intros c Hstop.
  - exists 0. split; [lia |]. now rewrite exits_at_0, Hstop.
  - destruct (polling (state_at r c 0)) eqn:Hgo.
    + rewrite <- state_at_shift in Hstop.
      destruct (IH _ Hstop) as (m & Hm & Hexit).
      exists (S m). split; [lia |]. now rewrite exits_at_S, Hgo.
    + exists 0. split; [lia |]. now rewrite exits_at_0, Hgo.
Qed.

Lemma exits_at_stops (r : remote) (c n : nat) :
  exits_at r c n = true -> polling (state_at r c n) = false.
Proof.
  unfold exits_at. intros Hexit. apply andb_true_iff in Hexit as [_ Hstop].
  now apply negb_true_iff.
Qed.

(** The loop sends no export request of its own. *)
Lemma poll_trace (r : remote) (fuel : nat) :
  forall (task_state : pyval) (w : world),
    exists t, trace (snd (poll r fuel task_state w)) = trace w ++ t
              /\ submitted t = [].
Proof.
  induction fuel as [| fuel IH]; intros task_state w.
  - exists []. split; [| reflexivity].
    simpl. destruct (polling task_state); simpl; now rewrite app_nil_r.
  - destruct (polling task_state) eqn:Hgo.
    + rewrite poll_S by exact Hgo.
      edestruct IH as (t & -> & Hnone).
      cbn [trace]. rewrite <- app_assoc.
      eexists. split; [reflexivity |].
      unfold submitted in *. rewrite omap_app, Hnone. reflexivity.
    + rewrite poll_0 by exact Hgo. exists []. split; [| reflexivity].
      simpl. now rewrite app_nil_r.
Qed.

(** *** [integral_trend] as a whole *)

Lemma integral_trend_unfold (r : remote) (fuel : nat) (year_start year_end : Z)
    (geojson EXECUTION_ID : pyval) :
  integral_trend r fuel year_start year_end geojson EXECUTION_ID initial =
  let res := poll r fuel (state_at r 0 0)
               {| queries := 1;
                  trace := [EvStart (export year_start year_end geojson EXECUTION_ID);
                            EvStatus] |} in
  (if fst res then Returned (format_location BUCKET (py_str EXECUTION_ID))
   else Diverging, snd res).
Proof.
  unfold integral_trend, mbind, M_bind, task_start, task_status, emit, initial.
  cbn [queries trace app]. unfold state_at. cbn [Nat.mul Nat.add].
  destruct (poll r fuel _ _) as [exited w]. reflexivity.
Qed.

Lemma integral_trend_exits (r : remote) (n fuel : nat) (year_start year_end : Z)
    (geojson EXECUTION_ID : pyval) :
  exits_at r 0 n = true -> n <= fuel ->
  integral_trend r fuel year_start year_end geojson EXECUTION_ID initial =
  (Returned (format_location BUCKET (py_str EXECUTION_ID)),
   {| queries := S (2 * n);
      trace := EvStart (export year_start year_end geojson EXECUTION_ID)
               :: EvStatus :: loop_trace r 0 n |}).
Proof.
  intros Hexit Hfuel. rewrite integral_trend_unfold.
  rewrite (poll_exits r n fuel 0); [| reflexivity | exact Hexit | exact Hfuel].
  cbn [fst snd trace app]. do 3 f_equal. lia.
Qed.

Lemma integral_trend_runs_on (r : remote) (fuel : nat) (year_start year_end : Z)
    (geojson EXECUTION_ID : pyval) :
  (forall n, polling (state_at r 0 n) = true) ->
  integral_trend r fuel year_start year_end geojson EXECUTION_ID initial =
  (Diverging,
   {| queries := S (2 * fuel);
      trace := EvStart (export year_start year_end geojson EXECUTION_ID)
               :: EvStatus :: loop_trace r 0 fuel |}).
Proof.
  intros Hall. rewrite integral_trend_unfold.
  rewrite (poll_runs_on r fuel 0); [| reflexivity | exact Hall].
  cbn [fst snd trace app]. do 3 f_equal. lia.
Qed.

Lemma integral_trend_not_raised (r : remote) (fuel : nat) (year_start year_end : Z)
    (geojson EXECUTION_ID : pyval) (e : pyexn) :
  fst (integral_trend r fuel year_start year_end geojson EXECUTION_ID initial)
  <> Raised e.
Proof.
  rewrite integral_trend_unfold. cbn [fst].
  destruct (fst (poll r fuel _ _)); discriminate.
Qed.

Lemma integral_trend_submits (r : remote) (fuel : nat) (year_start year_end : Z)
    (geojson EXECUTION_ID : pyval) :
  exists rest,
    trace (snd (integral_trend r fuel year_start year_end geojson EXECUTION_ID
                  initial))
    = EvStart (export year_start year_end geojson EXECUTION_ID) :: rest
    /\ submitted rest = [].
Proof.
  rewrite integral_trend_unfold. cbn [snd].
  edestruct poll_trace as (t & -> & Hnone).
  cbn [trace app]. eexists. split; [reflexivity |]. exact Hnone.
Qed.

Lemma reports_loop_trace (r : remote) (c n : nat) :
  reports (loop_trace r c n) = map (progress_at r c) (seq 0 n).
Proof.
  revert c. induction n as [| n IH]; intros c; [reflexivity |].
  rewrite loop_trace_S. unfold reports in *.
  rewrite omap_app, IH. cbn [omap seq map app]. f_equal.
  rewrite <- seq_shift, map_map.
  apply map_ext. intros i. apply progress_at_shift.
Qed.

Lemma sleeps_loop_trace (r : remote) (c n : nat) :
  sleeps (loop_trace r c n) = repeat POLL_INTERVAL n.
Proof.
  revert c. induction n as [| n IH]; intros c; [reflexivity |].
  rewrite loop_trace_S. unfold sleeps in *.
  rewrite omap_app, IH. reflexivity.
Qed.

End Loop.

(** ** The supervisor *)

Section Supervisor.

Context {collab : Collaborators}.

Variables (r : remote) (year_start year_end : Z) (geojson EXECUTION_ID : pyval).

(** C2 (amended): when the first state read that leaves the loop says
    FAILED or CANCELLED, the call stops polling and returns the output
    location, as it does for COMPLETED; nothing is raised, and one
    progress report was sent per iteration before. *)
Theorem failed_or_cancelled_returns (n fuel : nat) :
  exits_at r 0 n = true -> n <= fuel ->
  state_at r 0 n = PyStr "FAILED" \/ state_at r 0 n = PyStr "CANCELLED" ->
  let res := integral_trend r fuel year_start year_end geojson EXECUTION_ID
               initial in
  fst res = Returned (format_location BUCKET (py_str EXECUTION_ID)) /\
  (forall e, fst res <> Raised e) /\
  length (reports (trace (snd res))) = n.
Proof.
  intros Hexit Hfuel _ res. subst res.
  rewrite (integral_trend_exits r n fuel) by assumption.
  cbn [fst snd trace]. split; [reflexivity | split; [discriminate |]].
  change (reports (_ :: _ :: ?t)) with (reports t).
  now rewrite reports_loop_trace, length_map, length_seq.
Qed.

(** C5 (amended): every iteration of the loop asks for the status twice,
    first for the progress and then for the state, and hands exactly one
    value to the logger: the progress of the first of these two
    statuses, or 0.0 when that status has none. The loop is entered once
    for every state read that says READY or RUNNING: when state read [n]
    is the first to leave the loop, exactly [n] reports are sent, the
    status has been asked for [1 + 2 * n] times, and the location is
    returned. *)
Theorem progress_reports (n fuel : nat) :
  exits_at r 0 n = true -> n <= fuel ->
  let res := integral_trend r fuel year_start year_end geojson EXECUTION_ID
               initial in
  fst res = Returned (format_location BUCKET (py_str EXECUTION_ID)) /\
  reports (trace (snd res)) =
    map (fun i => default (PyFloat 0) (r (S (2 * i)) !! "progress")) (seq 0 n) /\
  length (reports (trace (snd res))) = n /\
  trace (snd res) =
    EvStart (export year_start year_end geojson EXECUTION_ID)
    :: EvStatus :: loop_trace r 0 n /\
  queries (snd res) = 1 + 2 * n.
Proof.
  intros Hexit Hfuel res. subst res.
  rewrite (integral_trend_exits r n fuel) by assumption.
  cbn [fst snd trace queries]. split; [reflexivity |].
  change (reports (_ :: _ :: ?t)) with (reports t).
  rewrite reports_loop_trace.
  split; [| split; [now rewrite length_map, length_seq | split; reflexivity]].
  apply map_ext. intros i. unfold progress_at, dict_get.
  now rewrite Nat.add_0_r.
Qed.

(** C6: once the task is seen COMPLETED the call returns the string
    "https://ldmt.storage.googleapis.com/<EXECUTION_ID>.tif", made of the
    bucket constant and the identifier; for the identifier "42" this is
    "https://ldmt.storage.googleapis.com/42.tif". No run of the function
    returns any other string. *)
Theorem returned_location (n fuel : nat) :
  exits_at r 0 n = true -> n <= fuel ->
  state_at r 0 n = PyStr "COMPLETED" ->
  let res := integral_trend r fuel year_start year_end geojson EXECUTION_ID
               initial in
  fst res =
    Returned ("https://ldmt.storage.googleapis.com/" ++ py_str EXECUTION_ID
              ++ ".tif")%string /\
  (EXECUTION_ID = PyStr "42" ->
     fst res = Returned "https://ldmt.storage.googleapis.com/42.tif") /\
  BUCKET = "ldmt"%string /\
  (forall fuel' loc,
     fst (integral_trend r fuel' year_start year_end geojson EXECUTION_ID
            initial) = Returned loc ->
     loc = ("https://" ++ BUCKET ++ ".storage.googleapis.com/"
            ++ py_str EXECUTION_ID ++ ".tif")%string).
Proof.
  intros Hexit Hfuel _ res. subst res.
  rewrite (integral_trend_exits r n fuel) by assumption.
  cbn [fst]. split; [reflexivity | split; [| split; [reflexivity |]]].
  - intros ->. reflexivity.
  - intros fuel' loc. rewrite integral_trend_unfold. cbn [fst].
    destruct (fst (poll r fuel' _ _)); [| discriminate].
    intros [= <-]. reflexivity.
Qed.

(** C7 (amended): a period without a coefficient raises nothing before the
    export is sent: the request is submitted as for any other period,
    with an image expression whose lookup is an error, and the call goes
    on to poll the task. *)
Theorem unsupported_period_submitted (fuel : nat) :
  kendall (period_of year_start year_end) = None ->
  let res := integral_trend r fuel year_start year_end geojson EXECUTION_ID
               initial in
  (forall e, fst res <> Raised e) /\
  exists req rest,
    trace (snd res) = EvStart req :: rest /\
    submitted (trace (snd res)) = [req] /\
    image req = None.
Proof.
  intros Hnone res. subst res. split.
  - intros e. apply integral_trend_not_raised.
  - destruct (integral_trend_submits r fuel year_start year_end geojson
                EXECUTION_ID) as (rest & -> & Hrest).
    exists (export year_start year_end geojson EXECUTION_ID), rest.
    split; [reflexivity | split].
    + change (submitted (EvStart ?x :: rest)) with (x :: submitted rest).
      now rewrite Hrest.
    + unfold export, export_image. cbn [image]. now rewrite Hnone.
Qed.

(** C8 (amended): the loop ends exactly when a state read, that is the
    status query made right after the start or the one that closes an
    iteration, is neither READY nor RUNNING; what the status queried for
    its progress says about the state is not looked at. If state read
    [n] is the first such, the call returns after [n] iterations,
    whatever fuel from [n] on it is given; if there is none, it is still
    running after any number of iterations. An iteration is two status
    queries with a progress report in between, followed by one wait of
    5: a run has one wait per iteration, made after the state read of
    that iteration, the last one included. *)
Theorem loop_termination :
  ((exists n, polling (state_at r 0 n) = false) <->
   (exists fuel,
      fst (integral_trend r fuel year_start year_end geojson EXECUTION_ID
             initial) <> Diverging)) /\
  (forall n fuel, exits_at r 0 n = true -> n <= fuel ->
     let res := integral_trend r fuel year_start year_end geojson EXECUTION_ID
                  initial in
     fst res = Returned (format_location BUCKET (py_str EXECUTION_ID)) /\
     queries (snd res) = S (2 * n) /\
     sleeps (trace (snd res)) = repeat 5%Z n /\
     trace (snd res) =
       EvStart (export year_start year_end geojson EXECUTION_ID) :: EvStatus
       :: flat_map
            (fun i => [EvStatus; EvProgress (progress_at r 0 i); EvStatus;
                       EvSleep 5])
            (seq 0 n)) /\
  ((forall n, polling (state_at r 0 n) = true) ->
   forall fuel,
     let res := integral_trend r fuel year_start year_end geojson EXECUTION_ID
                  initial in
     fst res = Diverging /\ sleeps (trace (snd res)) = repeat 5%Z fuel).
Proof.
  split; [split | split].
  - intros [n Hstop].
    destruct (exits_at_first r 0 n Hstop) as (m & _ & Hexit).
    exists m. rewrite (integral_trend_exits r m m) by (assumption || lia).
    discriminate.
  - intros [fuel Hdone]. rewrite integral_trend_unfold in Hdone. cbn [fst] in Hdone.
    destruct (fst (poll r fuel (state_at r 0 0) _)) eqn:Hpoll; [| congruence].
    apply poll_exit_cause in Hpoll as (n & _ & Hexit); [| reflexivity].
    exists n. now apply exits_at_stops.
  - intros n fuel Hexit Hfuel res. subst res.
    rewrite (integral_trend_exits r n fuel) by assumption.
    cbn [fst snd trace queries].
    split; [reflexivity | split; [reflexivity | split; [| reflexivity]]].
    change (sleeps (_ :: _ :: ?t)) with (sleeps t).
    apply sleeps_loop_trace.
  - intros Hall fuel res. subst res.
    rewrite (integral_trend_runs_on r fuel) by assumption.
    cbn [fst snd trace]. split; [reflexivity |].
    change (sleeps (_ :: _ :: ?t)) with (sleeps t).
    apply sleeps_loop_trace.
Qed.

End Supervisor.

(** ** The entry point *)

Section Run.

Context {collab : Collaborators}.

Variables (r : remote) (fuel : nat) (rnd : Z) (params : gmap string pyval).

Lemma env_not_dev :
  params !! "ENV" <> Some (PyStr "dev") ->
  py_eq_str (dict_get params "ENV" PyNone) "dev" = false.
Proof.
  intros Henv. unfold dict_get.
  destruct (params !! "ENV") as [v |]; [| reflexivity].
  destruct v as [| | | s | |]; try reflexivity.
  simpl. destruct (String.eqb_spec s "dev") as [-> | Hne]; [| reflexivity].
  now contradiction Henv.
Qed.

Lemma run_with_years (ys ye : Z) :
  dict_get params "year_start" (PyInt 2003) = PyInt ys ->
  dict_get params "year_end" (PyInt 2015) = PyInt ye ->
  run r fuel rnd params =
  integral_trend r fuel ys ye (dict_get params "geojson" default_poly)
    (if py_eq_str (dict_get params "ENV" PyNone) "dev"
     then PyStr (pretty rnd)
     else dict_get params "EXECUTION_ID" PyNone).
Proof. intros Hys Hye. unfold run. now rewrite Hys, Hye. Qed.

(** C9: with an environment flag other than 'dev' and no execution
    identifier among the parameters, [run] goes on with the identifier
    [None]: nothing is raised, the export is named [None], and once the
    task leaves READY and RUNNING the call returns
    "https://ldmt.storage.googleapis.com/None.tif". *)
Theorem run_without_execution_id (ys ye : Z) :
  params !! "ENV" <> Some (PyStr "dev") ->
  params !! "EXECUTION_ID" = None ->
  dict_get params "year_start" (PyInt 2003) = PyInt ys ->
  dict_get params "year_end" (PyInt 2015) = PyInt ye ->
  let res := run r fuel rnd params initial in
  (forall e, fst res <> Raised e) /\
  (exists req rest,
     trace (snd res) = EvStart req :: rest /\
     description req = PyNone /\ fileNamePrefix req = PyNone) /\
  (forall n, exits_at r 0 n = true -> n <= fuel ->
     fst res = Returned "https://ldmt.storage.googleapis.com/None.tif").
Proof.
  intros Henv Hid Hys Hye res. subst res.
  rewrite (run_with_years ys ye Hys Hye), (env_not_dev Henv).
  assert (dict_get params "EXECUTION_ID" PyNone = PyNone) as ->
    by (unfold dict_get; now rewrite Hid).
  split; [| split].
  - intros e. apply integral_trend_not_raised.
  - edestruct integral_trend_submits as (rest & -> & _).
    eexists _, rest. split; [reflexivity | split; reflexivity].
  - intros n Hexit Hfuel.
    now rewrite (integral_trend_exits r n fuel) by assumption.
Qed.

(** C10: when the parameters hold no geometry, [run] behaves as if they
    held the built-in polygon, a FeatureCollection whose one feature is
    named Senegal: that polygon is what the region of the export is taken
    from, and its absence raises nothing. *)
Theorem run_default_geometry (ys ye : Z) :
  params !! "geojson" = None ->
  dict_get params "year_start" (PyInt 2003) = PyInt ys ->
  dict_get params "year_end" (PyInt 2015) = PyInt ye ->
  let res := run r fuel rnd params initial in
  res = run r fuel rnd (<["geojson" := default_poly]> params) initial /\
  (forall e, fst res <> Raised e) /\
  (exists req rest,
     trace (snd res) = EvStart req :: rest /\
     region req = get_coords default_poly) /\
  py_key "type" default_poly = Some (PyStr "FeatureCollection") /\
  feature_name 0 default_poly = Some (PyStr "Senegal") /\
  feature_name 1 default_poly = None.
Proof.
  intros Hgeo Hys Hye res. subst res.
  split; [| split; [| split; [| repeat split]]].
  - unfold run, dict_get. rewrite lookup_insert_eq, Hgeo.
    now rewrite !lookup_insert_ne by discriminate.
  - intros e. rewrite (run_with_years ys ye Hys Hye).
    apply integral_trend_not_raised.
  - rewrite (run_with_years ys ye Hys Hye).
    edestruct integral_trend_submits as (rest & -> & _).
    eexists _, rest. split; [reflexivity |].
    unfold export, dict_get. cbn [region]. now rewrite Hgeo.
Qed.

End Run.

(** ** The results on the sample inputs *)

(** C2, as the claim states it, fails: on a task whose state reads are
    READY, RUNNING, RUNNING, FAILED the call returns the location, and
    so it does on one that is CANCELLED. *)
Lemma failed_task_returns_location :
  map (state_at remote_failed 0) (seq 0 4) =
    [PyStr "READY"; PyStr "RUNNING"; PyStr "RUNNING"; PyStr "FAILED"] /\
  fst (integral_trend (collab := sample_collaborators) remote_failed 3
         2003 2015 default_poly (PyStr "42") initial)
    = Returned "https://ldmt.storage.googleapis.com/42.tif" /\
  map (state_at remote_cancelled 0) (seq 0 2) =
    [PyStr "READY"; PyStr "CANCELLED"] /\
  fst (integral_trend (collab := sample_collaborators) remote_cancelled 1
         2003 2015 default_poly (PyStr "42") initial)
    = Returned "https://ldmt.storage.googleapis.com/42.tif".
Proof. repeat (split; [vm_compute; reflexivity |]). vm_compute. reflexivity. Qed.

(** The amended C2 on the failed task. *)
Lemma failed_or_cancelled_returns_witness :
  exits_at remote_failed 0 3 = true /\
  state_at remote_failed 0 3 = PyStr "FAILED" /\
  fst (integral_trend (collab := sample_collaborators) remote_failed 3
         2003 2015 default_poly (PyStr "42") initial)
    = Returned "https://ldmt.storage.googleapis.com/42.tif".
Proof.
  split; [vm_compute; reflexivity | split; [vm_compute; reflexivity |]].
  apply (failed_or_cancelled_returns (collab := sample_collaborators)
           remote_failed 2003 2015 default_poly (PyStr "42") 3 3).
  - vm_compute. reflexivity.
  - lia.
  - left. vm_compute. reflexivity.
Defined.

(** C5, as the claim states it, fails: a task that answers READY,
    RUNNING, RUNNING, COMPLETED to the successive status queries gets two
    progress reports, not three, because the second and the fourth
    answer are asked for their progress and not for their state. *)
Lemma literal_sequence_two_reports :
  map (fun n => dict_get (remote_literal n) "state" PyNone) (seq 0 4) =
    [PyStr "READY"; PyStr "RUNNING"; PyStr "RUNNING"; PyStr "COMPLETED"] /\
  let res := integral_trend (collab := sample_collaborators) remote_literal 5
               2003 2015 default_poly (PyStr "42") initial in
  fst res = Returned "https://ldmt.storage.googleapis.com/42.tif" /\
  reports (trace (snd res)) = [PyFloat (1 # 4); PyFloat 1] /\
  length (reports (trace (snd res))) <> 3.
Proof.
  split; [vm_compute; reflexivity |].
  split; [vm_compute; reflexivity | split; [vm_compute; reflexivity |]].
  vm_compute. discriminate.
Qed.

(** The amended C5 on the same task: its state reads are the answers
    number 0, 2 and 4, of which the third is the first to leave the
    loop; two reports, five status queries, and then the location. *)
Lemma progress_reports_witness :
  map (state_at remote_literal 0) (seq 0 3) =
    [PyStr "READY"; PyStr "RUNNING"; PyStr "COMPLETED"] /\
  exits_at remote_literal 0 2 = true /\
  let res := integral_trend (collab := sample_collaborators) remote_literal 2
               2003 2015 default_poly (PyStr "42") initial in
  fst res = Returned "https://ldmt.storage.googleapis.com/42.tif" /\
  reports (trace (snd res)) = [PyFloat (1 # 4); PyFloat 1] /\
  length (reports (trace (snd res))) = 2 /\
  queries (snd res) = 5.
Proof.
  split; [vm_compute; reflexivity | split; [vm_compute; reflexivity |]].
  destruct (progress_reports (collab := sample_collaborators)
              remote_literal 2003 2015 default_poly (PyStr "42") 2 2)
    as (Hret & Hreports & Hlen & _ & Hqueries).
  - vm_compute. reflexivity.
  - lia.
  - split; [exact Hret | split; [exact Hreports | split]];
      [exact Hlen | exact Hqueries].
Defined.

(** C6 for the bucket "ldmt" and the identifier "42". *)
Lemma returned_location_witness :
  state_at remote_completed 0 3 = PyStr "COMPLETED" /\
  fst (integral_trend (collab := sample_collaborators) remote_completed 3
         2003 2015 default_poly (PyStr "42") initial)
    = Returned "https://ldmt.storage.googleapis.com/42.tif".
Proof.
  split; [vm_compute; reflexivity |].
  destruct (returned_location (collab := sample_collaborators)
              remote_completed 2003 2015 default_poly (PyStr "42") 3 3)
    as (_ & H42 & _).
  - vm_compute. reflexivity.
  - lia.
  - vm_compute. reflexivity.
  - apply H42. reflexivity.
Defined.

(** C7, as the claim states it, fails: for the years 1970 to 2015 the
    period is 46, which has no coefficient, and yet the export request is
    sent and the call returns without raising. *)
Lemma unsupported_period_is_submitted :
  period_of 1970 2015 = 46%Z /\ kendall 46 = None /\
  let res := integral_trend (collab := sample_collaborators) remote_done 0
               1970 2015 default_poly (PyStr "42") initial in
  fst res = Returned "https://ldmt.storage.googleapis.com/42.tif" /\
  length (submitted (trace (snd res))) = 1.
Proof.
  split; [reflexivity | split; [reflexivity |]].
  split; vm_compute; reflexivity.
Qed.

(** The amended C7 on the same request. *)
Lemma unsupported_period_submitted_witness :
  kendall (period_of 1970 2015) = None /\
  exists req rest,
    trace (snd (integral_trend (collab := sample_collaborators) remote_done 0
                  1970 2015 default_poly (PyStr "42") initial))
      = EvStart req :: rest /\
    image req = None.
Proof.
  split; [reflexivity |].
  destruct (unsupported_period_submitted (collab := sample_collaborators)
              remote_done 1970 2015 default_poly (PyStr "42") 0)
    as (_ & req & rest & Htrace & _ & Himage).
  - reflexivity.
  - exists req, rest. split; [exact Htrace | exact Himage].
Defined.

Lemma remote_flicker_state_reads (n : nat) :
  polling (state_at remote_flicker 0 n) = true.
Proof.
  unfold state_at, remote_flicker.
  now rewrite Nat.add_0_r, Nat.even_mul.
Qed.

(** C8, as the claim states it, fails twice. A task that reports
    COMPLETED at every odd status query and RUNNING at every even one
    does report a terminal state, and yet the loop never ends, because
    the odd queries are only asked for their progress. And the status
    checks are not 5 apart: a run starts with two status queries in a
    row, and the two queries of an iteration have only the progress
    report between them. *)
Lemma terminal_state_unseen_checks_unspaced :
  dict_get (remote_flicker 1) "state" PyNone = PyStr "COMPLETED" /\
  (forall fuel,
     fst (integral_trend (collab := sample_collaborators) remote_flicker fuel
            2003 2015 default_poly (PyStr "42") initial) = Diverging) /\
  exists req p,
    take 6 (trace (snd (integral_trend (collab := sample_collaborators)
                          remote_completed 3 2003 2015 default_poly
                          (PyStr "42") initial)))
    = [EvStart req; EvStatus; EvStatus; EvProgress p; EvStatus; EvSleep 5].
Proof.
  split; [vm_compute; reflexivity | split].
  - intros fuel.
    now rewrite (integral_trend_runs_on (collab := sample_collaborators)
                   remote_flicker fuel 2003 2015 default_poly (PyStr "42")
                   remote_flicker_state_reads).
  - eexists _, _. vm_compute. reflexivity.
Qed.

(** The amended C8 on a task that completes and on one that never leaves
    RUNNING. *)
Lemma loop_termination_witness :
  (exists fuel,
     fst (integral_trend (collab := sample_collaborators) remote_completed fuel
            2003 2015 default_poly (PyStr "42") initial) <> Diverging) /\
  sleeps (trace (snd (integral_trend (collab := sample_collaborators)
                        remote_completed 3 2003 2015 default_poly (PyStr "42")
                        initial))) = [5; 5; 5]%Z /\
  (forall fuel,
     fst (integral_trend (collab := sample_collaborators) remote_busy fuel
            2003 2015 default_poly (PyStr "42") initial) = Diverging).
Proof.
  destruct (loop_termination (collab := sample_collaborators)
              remote_completed 2003 2015 default_poly (PyStr "42"))
    as ([Hends _] & Hexit & _).
  destruct (loop_termination (collab := sample_collaborators)
              remote_busy 2003 2015 default_poly (PyStr "42"))
    as (_ & _ & Hbusy).
  split; [| split].
  - apply Hends. exists 3. vm_compute. reflexivity.
  - destruct (Hexit 3 3) as (_ & _ & Hsleeps & _).
    + vm_compute. reflexivity.
    + lia.
    + exact Hsleeps.
  - intros fuel. apply Hbusy. intros n. reflexivity.
Defined.

(** C9 on a production request without an identifier. *)
Lemma run_without_execution_id_witness :
  let params : gmap string pyval :=
    {[ "ENV" := PyStr "prod"; "year_start" := PyInt 2001 ]} in
  params !! "EXECUTION_ID" = None /\
  fst (run (collab := sample_collaborators) remote_completed 3 7 params initial)
    = Returned "https://ldmt.storage.googleapis.com/None.tif".
Proof.
  intros params. split; [vm_compute; reflexivity |].
  destruct (run_without_execution_id (collab := sample_collaborators)
              remote_completed 3 7 params 2001 2015)
    as (_ & _ & Hreturns).
  - vm_compute. discriminate.
  - vm_compute. reflexivity.
  - vm_compute. reflexivity.
  - vm_compute. reflexivity.
  - apply (Hreturns 3); [vm_compute; reflexivity | lia].
Defined.

(** C10 on a request that only carries an identifier. *)
Lemma run_default_geometry_witness :
  let params : gmap string pyval := {[ "EXECUTION_ID" := PyStr "42" ]} in
  params !! "geojson" = None /\
  exists req rest,
    trace (snd (run (collab := sample_collaborators) remote_completed 3 7
                  params initial)) = EvStart req :: rest /\
    region req = default_poly.
Proof.
  intros params. split; [vm_compute; reflexivity |].
  destruct (run_default_geometry (collab := sample_collaborators)
              remote_completed 3 7 params 2003 2015)
    as (_ & _ & Hregion & _).
  - vm_compute. reflexivity.
  - vm_compute. reflexivity.
  - vm_compute. reflexivity.
  - exact Hregion.
Defined.

(** * Further properties *)

(** ** The masked image, beyond the rule itself *)

Lemma Qle_bool_false_lt (x y : Q) : Qle_bool x y = false -> (y < x)%Q.
Proof.
  intros Hle. apply Qnot_le_lt. intros Hxy.
  apply Qle_bool_iff in Hxy. congruence.
Qed.

(** X1: the image handed to the export has no missing pixel: every pixel
    holds a number, and that number is either -99999 or the slope found
    there, in which case the slope is larger than 1e-6 in absolute
    value. *)
Theorem masked_trend_defined (slope mk_trend : ee.Image) (k : Z) (px : ee.pixel) :
  exists v, masked_trend slope mk_trend k px = Some v /\
            (v = NODATA \/ (slope px = Some v /\ (EPSILON < Qabs v)%Q)).
Proof.
  rewrite masked_trend_unfold.
  destruct (slope px) as [s |]; [| exists NODATA; auto].
  destruct (Qle_bool (Qabs s) EPSILON) eqn:Hs; [exists NODATA; auto |].
  apply Qle_bool_false_lt in Hs.
  destruct (mk_trend px) as [z |].
  - destruct (Qle_bool (Qabs z) (inject_Z k)); [exists NODATA; auto |].
    exists s. auto.
  - exists s. auto.
Qed.

Lemma Qabs_Qopp (z : Q) : Qabs (Qopp z) = Qabs z.
Proof. destruct z as [n d]. unfold Qabs, Qopp. simpl. now rewrite Z.abs_opp. Qed.

(** X2: the test is two-sided: turning the sign of the statistic image
    around changes no pixel of the result. *)
Theorem masked_trend_statistic_sign (slope mk_trend mk_trend' : ee.Image)
    (k : Z) :
  (forall px, mk_trend' px = Qopp <$> mk_trend px) ->
  forall px, masked_trend slope mk_trend' k px = masked_trend slope mk_trend k px.
Proof.
  intros Hneg px. rewrite !masked_trend_unfold, Hneg.
  destruct (mk_trend px) as [z |]; [| reflexivity].
  change (Qopp <$> Some z) with (Some (Qopp z)). cbv iota.
  now rewrite Qabs_Qopp.
Qed.

(** X3: the two replacements do not depend on their order: testing the
    slope first and the statistic second gives the same image, because
    the slope test reads the slope image itself and not the result of
    the first replacement. *)
Theorem masked_trend_where_order (slope mk_trend : ee.Image) (k : Z)
    (px : ee.pixel) :
  ee.unmask
    (ee.where_
       (ee.where_ slope
          (ee.lte (ee.abs slope) (ee.constant EPSILON))
          (ee.constant NODATA))
       (ee.lte (ee.abs mk_trend) (ee.constant (inject_Z k)))
       (ee.constant NODATA))
    (ee.constant NODATA) px
  = masked_trend slope mk_trend k px.
Proof.
  unfold masked_trend, ee.unmask, ee.where_, ee.lte, ee.abs, ee.constant.
  destruct (slope px) as [s |]; [| reflexivity].
  destruct (mk_trend px) as [z |]; simpl.
  - destruct (Qle_bool (Qabs z) (inject_Z k)), (Qle_bool (Qabs s) EPSILON);
      reflexivity.
  - destruct (Qle_bool (Qabs s) EPSILON); reflexivity.
Qed.

Lemma coefficients_range : Forall (fun k => (4 <= k <= 142)%Z) coefficients.
Proof. unfold coefficients. repeat (constructor; [lia |]). constructor. Qed.

Lemma kendall_range (p k : Z) : kendall p = Some k -> (4 <= k <= 142)%Z.
Proof.
  intros Hk. apply Array_get_Some in Hk as [_ Hk].
  exact (proj1 (Forall_lookup _ _) coefficients_range _ _ Hk).
Qed.

(** X4: whatever the supported period, a pixel whose statistic is at most
    4 in absolute value is written as -99999, and a pixel whose statistic
    exceeds 142 in absolute value passes the significance test, so that
    it keeps its slope as soon as the slope exceeds 1e-6. *)
Theorem masked_trend_any_period (slope mk_trend : ee.Image) (p k : Z)
    (px : ee.pixel) (s z : Q) :
  kendall p = Some k -> slope px = Some s -> mk_trend px = Some z ->
  ((Qabs z <= 4)%Q -> masked_trend slope mk_trend k px = Some NODATA) /\
  ((142 < Qabs z)%Q -> (EPSILON < Qabs s)%Q ->
     masked_trend slope mk_trend k px = Some s).
Proof.
  intros Hk Hs Hz. apply kendall_range in Hk.
  rewrite masked_trend_unfold, Hs, Hz. split.
  - intros Hsmall.
    rewrite (Qle_bool_true (Qabs z) (inject_Z k)).
    + now destruct (Qle_bool (Qabs s) EPSILON).
    + apply Qle_trans with (y := inject_Z 4); [exact Hsmall |].
      rewrite <- Zle_Qle. lia.
  - intros Hbig Hslope.
    rewrite (Qle_bool_false _ _ Hslope).
    rewrite (Qle_bool_false (Qabs z) (inject_Z k)); [reflexivity |].
    apply Qle_lt_trans with (y := inject_Z 142); [| exact Hbig].
    rewrite <- Zle_Qle. lia.
Qed.

(** ** The table, as a function of the years *)

Lemma strongly_sorted_lookup (l : list Z) :
  StronglySorted Z.lt l ->
  forall (i j : nat) (x y : Z),
    l !! i = Some x -> l !! j = Some y -> i < j -> (x < y)%Z.
Proof.
  induction 1 as [| a l Hsorted IH Hall]; intros i j x y Hi Hj Hij.
  - discriminate.
  - destruct j as [| j]; [lia |]. destruct i as [| i].
    + injection Hi as <-. simpl in Hj.
      exact (proj1 (Forall_lookup _ _) Hall _ _ Hj).
    + simpl in Hi, Hj. apply (IH i j); [assumption | assumption | lia].
Qed.

Lemma coefficients_sorted : StronglySorted Z.lt coefficients.
Proof.
  unfold coefficients.
  repeat (constructor; [| repeat (constructor; [reflexivity |]); constructor]).
  constructor.
Qed.

(** X5: the critical value grows with the period: of two periods that
    have a coefficient, the longer one has the strictly larger one. *)
Theorem kendall_increasing (p q k k' : Z) :
  kendall p = Some k -> kendall q = Some k' -> (p < q)%Z -> (k < k')%Z.
Proof.
  intros Hp Hq Hpq.
  apply Array_get_Some in Hp as [Hp0 Hp], Hq as [Hq0 Hq].
  apply (strongly_sorted_lookup coefficients coefficients_sorted
           (Z.to_nat (p - 4)) (Z.to_nat (q - 4))); [assumption | assumption |].
  lia.
Qed.

Lemma kendall_is_Some (p : Z) : is_Some (kendall p) <-> (4 <= p <= 40)%Z.
Proof.
  destruct (kendall p) as [k |] eqn:Hk.
  - split; [intros _ | eauto].
    apply Array_get_Some in Hk as [Hlow Hk].
    apply lookup_lt_Some in Hk. rewrite coefficients_length in Hk. lia.
  - split; [intros [k Hk']; discriminate |].
    apply Array_get_None in Hk. rewrite coefficients_length in Hk. lia.
Qed.

Section Request.

Context {collab : Collaborators}.

(** X6: the image of the export request is a defined expression exactly
    when the last year lies between 3 and 39 years after the first; a
    shorter span, a longer one, or years in the wrong order leave the
    request with an expression whose coefficient lookup is an error. *)
Theorem export_image_years (year_start year_end : Z) (geojson EXECUTION_ID : pyval) :
  is_Some (image (export year_start year_end geojson EXECUTION_ID)) <->
  (year_start + 3 <= year_end <= year_start + 39)%Z.
Proof.
  unfold export, export_image. cbn [image].
  rewrite fmap_is_Some, kendall_is_Some. unfold period_of. lia.
Qed.

End Request.

(** ** The supervisor, for any task and any number of iterations *)

Section Accounting.

Context {collab : Collaborators}.

Variables (year_start year_end : Z) (geojson EXECUTION_ID : pyval).

Lemma polling_false (v : pyval) :
  v <> PyStr "READY" -> v <> PyStr "RUNNING" -> polling v = false.
Proof.
  intros Hready Hrunning. unfold polling, py_eq_str.
  destruct v as [| | | s | |]; try reflexivity.
  destruct (String.eqb_spec s "READY") as [-> | _]; [congruence |].
  destruct (String.eqb_spec s "RUNNING") as [-> | _]; [congruence |].
  reflexivity.
Qed.



(** X7: every call sends exactly one export request, before anything
    else, whatever the task does afterwards. The request is described
    and prefixed by the execution identifier and goes to the bucket
    "ldmt", and a location that the call returns is the one named by the
    bucket and the file name prefix of that request. *)
Theorem one_export_per_call (r : remote) (fuel : nat) :
  let res := integral_trend r fuel year_start year_end geojson EXECUTION_ID
               initial in
  exists req rest,
    trace (snd res) = EvStart req :: rest /\
    submitted (trace (snd res)) = [req] /\
    description req = EXECUTION_ID /\ fileNamePrefix req = EXECUTION_ID /\
    bucket req = "ldmt"%string /\
    maxPixels req = 10000000000%Z /\ scale req = 250%Z /\
    forall loc, fst res = Returned loc ->
      loc = ("https://" ++ bucket req ++ ".storage.googleapis.com/"
             ++ py_str (fileNamePrefix req) ++ ".tif")%string.
Proof.
  intros res. subst res.
  destruct (integral_trend_submits r fuel year_start year_end geojson
              EXECUTION_ID) as (rest & Htrace & Hrest).
  exists (export year_start year_end geojson EXECUTION_ID), rest.
  rewrite Htrace. split; [reflexivity | split].
  - change (submitted (EvStart ?x :: rest)) with (x :: submitted rest).
    now rewrite Hrest.
  - repeat (split; [reflexivity |]).
    intros loc. rewrite integral_trend_unfold. cbn [fst].
    destruct (fst (poll r fuel _ _)); [| discriminate].
    intros [= <-]. reflexivity.
Qed.


(** X9: when the first status does not say READY or RUNNING, be it
    another state, a value that is no string, or a status without a
    ['state'] entry, the call returns the location at once: one status
    query, no progress report and no wait. *)
Theorem immediate_return (r : remote) (fuel : nat) :
  r 0 !! "state" <> Some (PyStr "READY") ->
  r 0 !! "state" <> Some (PyStr "RUNNING") ->
  integral_trend r fuel year_start year_end geojson EXECUTION_ID initial =
  (Returned (format_location BUCKET (py_str EXECUTION_ID)),
   {| queries := 1;
      trace := [EvStart (export year_start year_end geojson EXECUTION_ID);
                EvStatus] |}).
Proof.
  intros Hready Hrunning. rewrite integral_trend_unfold.
  rewrite poll_0; [reflexivity |].
  unfold state_at, dict_get. cbn [Nat.mul Nat.add].
  apply polling_false; destruct (r 0 !! "state") as [v |];
    simpl; congruence.
Qed.

Lemma loop_trace_last (r : remote) (c n : nat) :
  loop_trace r c (S n) =
  loop_trace r c n
  ++ [EvStatus; EvProgress (progress_at r c n); EvStatus; EvSleep POLL_INTERVAL].
Proof.
  unfold loop_trace. rewrite seq_S, flat_map_app. cbn [flat_map Nat.add].
  now rewrite app_nil_r.
Qed.

(** X10: a call that went through at least one iteration ends with a
    wait: after the status query that shows a state other than READY and
    RUNNING it still waits 5 before it returns the location. *)
Theorem waits_before_return (r : remote) (n fuel : nat) :
  exits_at r 0 (S n) = true -> S n <= fuel ->
  let res := integral_trend r fuel year_start year_end geojson EXECUTION_ID
               initial in
  fst res = Returned (format_location BUCKET (py_str EXECUTION_ID)) /\
  polling (state_at r 0 (S n)) = false /\
  exists t, trace (snd res) = t ++ [EvStatus; EvSleep 5].
Proof.
  intros Hexit Hfuel res. subst res.
  rewrite (integral_trend_exits r (S n) fuel) by assumption.
  cbn [fst snd trace].
  split; [reflexivity | split; [now apply exits_at_stops |]].
  rewrite loop_trace_last.
  exists (EvStart (export year_start year_end geojson EXECUTION_ID) :: EvStatus
          :: loop_trace r 0 n ++ [EvStatus; EvProgress (progress_at r 0 n)]).
  cbn [app]. do 2 f_equal. now rewrite <- app_assoc.
Qed.

Lemma poll_ext (r r' : remote) (fuel : nat) :
  forall (c : nat) (w : world),
    queries w = S c ->
    (forall n, n <= fuel -> state_at r c n = state_at r' c n) ->
    (forall i, i < fuel -> progress_at r c i = progress_at r' c i) ->
    poll r fuel (state_at r c 0) w = poll r' fuel (state_at r' c 0) w.
Proof.
  induction fuel as [| fuel IH]; intros c w Hq Hstate Hprogress.
  - now rewrite (Hstate 0) by lia.
  - rewrite <- (Hstate 0) by lia.
    destruct (polling (state_at r c 0)) eqn:Hgo.
    + rewrite !poll_S by exact Hgo. rewrite Hq.
      change (dict_get (r (S (S c))) "state" PyNone) with (state_at r (S (S c)) 0).
      change (dict_get (r' (S (S c))) "state" PyNone) with (state_at r' (S (S c)) 0).
      change (dict_get (r (S c)) "progress" (PyFloat 0)) with (progress_at r c 0).
      change (dict_get (r' (S c)) "progress" (PyFloat 0)) with (progress_at r' c 0).
      rewrite <- (Hprogress 0) by lia.
      apply IH; [reflexivity | |].
      * intros n Hn. rewrite !state_at_shift. apply Hstate. lia.
      * intros i Hi. rewrite !progress_at_shift. apply Hprogress. lia.
    + now rewrite !poll_0 by exact Hgo.
Qed.

(** X11: the call reads nothing of a status but the state, at the query
    that ends an iteration, and the progress, at the query that begins
    one. Two tasks that agree on these give the same outcome and the same
    events; so the progress of the status that ends the loop is never
    reported, and the state of a status asked for its progress never ends
    the loop. *)
Theorem reads_state_and_progress_only (r r' : remote) (fuel : nat) :
  (forall n, n <= fuel -> state_at r 0 n = state_at r' 0 n) ->
  (forall i, i < fuel -> progress_at r 0 i = progress_at r' 0 i) ->
  integral_trend r fuel year_start year_end geojson EXECUTION_ID initial =
  integral_trend r' fuel year_start year_end geojson EXECUTION_ID initial.
Proof.
  intros Hstate Hprogress. rewrite !integral_trend_unfold.
  now rewrite (poll_ext r r' fuel 0) by (reflexivity || assumption).
Qed.

End Accounting.

(** ** The entry point, further *)

Lemma string_length_app (a b : string) :
  String.length (a ++ b)%string = String.length a + String.length b.
Proof. induction a as [| c a IH]; simpl; [reflexivity | now rewrite IH]. Qed.

Lemma string_app_inj_r (a b sfx : string) :
  (a ++ sfx)%string = (b ++ sfx)%string -> a = b.
Proof.
  revert b. induction a as [| c a IH]; intros b Heq.
  - apply (f_equal String.length) in Heq.
    rewrite !string_length_app in Heq. simpl in Heq.
    destruct b as [| c' b]; [reflexivity | simpl in Heq; lia].
  - destruct b as [| c' b].
    + apply (f_equal String.length) in Heq.
      rewrite !string_length_app in Heq. simpl in Heq. lia.
    + simpl in Heq. injection Heq as -> Heq. f_equal. now apply IH.
Qed.

Lemma format_location_inj (a b : string) :
  format_location BUCKET a = format_location BUCKET b -> a = b.
Proof.
  unfold format_location. intros Heq.
  do 3 apply String.app_inj in Heq.
  exact (string_app_inj_r a b ".tif" Heq).
Qed.

Section Entry.

Context {collab : Collaborators}.

Lemma integral_trend_returned (r : remote) (fuel : nat) (ys ye : Z)
    (geojson EXECUTION_ID : pyval) (loc : string) :
  fst (integral_trend r fuel ys ye geojson EXECUTION_ID initial) = Returned loc ->
  loc = format_location BUCKET (py_str EXECUTION_ID).
Proof.
  rewrite integral_trend_unfold. cbn [fst].
  destruct (fst (poll r fuel _ _)); [| discriminate].
  now intros [= <-].
Qed.

(** X12: two calls that return the same location were given the same
    identifier, when the identifiers are strings: distinct identifiers
    never share an output file, whatever the years, the area and the
    course of the two tasks. *)
Theorem distinct_identifiers_distinct_locations
    (r r' : remote) (fuel fuel' : nat) (ys ye ys' ye' : Z)
    (geojson geojson' : pyval) (a b loc : string) :
  fst (integral_trend r fuel ys ye geojson (PyStr a) initial) = Returned loc ->
  fst (integral_trend r' fuel' ys' ye' geojson' (PyStr b) initial) = Returned loc ->
  a = b.
Proof.
  intros Ha Hb. apply integral_trend_returned in Ha, Hb.
  apply format_location_inj. cbn [py_str] in Ha, Hb. congruence.
Qed.

Variables (r : remote) (fuel : nat) (rnd : Z) (params : gmap string pyval).

Lemma env_dev :
  params !! "ENV" = Some (PyStr "dev") ->
  py_eq_str (dict_get params "ENV" PyNone) "dev" = true.
Proof. intros Henv. unfold dict_get. now rewrite Henv. Qed.

(** X13: in the 'dev' environment the identifier comes from the random
    draw alone: an EXECUTION_ID among the parameters changes nothing, the
    export is named by the decimal digits of the draw, and so is the
    location returned once the task has left READY and RUNNING. *)
Theorem run_dev_identifier (v : pyval) (ys ye : Z) :
  params !! "ENV" = Some (PyStr "dev") ->
  dict_get params "year_start" (PyInt 2003) = PyInt ys ->
  dict_get params "year_end" (PyInt 2015) = PyInt ye ->
  let res := run r fuel rnd params initial in
  run r fuel rnd (<["EXECUTION_ID" := v]> params) initial = res /\
  (exists req rest,
     trace (snd res) = EvStart req :: rest /\
     fileNamePrefix req = PyStr (pretty rnd)) /\
  (forall n, exits_at r 0 n = true -> n <= fuel ->
     fst res =
       Returned ("https://ldmt.storage.googleapis.com/" ++ pretty rnd ++ ".tif")%string).
Proof.
  intros Henv Hys Hye res. subst res. split; [| split].
  - unfold run, dict_get.
    rewrite !(lookup_insert_ne params "EXECUTION_ID") by discriminate.
    fold (dict_get params "ENV" PyNone). now rewrite (env_dev Henv).
  - rewrite (run_with_years r fuel rnd params ys ye Hys Hye), (env_dev Henv).
    edestruct integral_trend_submits as (rest & -> & _).
    eexists _, rest. split; reflexivity.
  - intros n Hexit Hfuel.
    rewrite (run_with_years r fuel rnd params ys ye Hys Hye), (env_dev Henv).
    now rewrite (integral_trend_exits r n fuel) by assumption.
Qed.

(** X14: [run] reads five entries of the parameters and no other: an
    entry under any other key changes neither the outcome nor the
    events. *)
Theorem run_ignores_other_keys (key : string) (v : pyval) :
  key <> "year_start"%string -> key <> "year_end"%string ->
  key <> "ENV"%string -> key <> "EXECUTION_ID"%string ->
  key <> "geojson"%string ->
  run r fuel rnd (<[key := v]> params) = run r fuel rnd params.
Proof.
  intros H1 H2 H3 H4 H5. unfold run, dict_get.
  now rewrite !(lookup_insert_ne params key) by assumption.
Qed.

End Entry.

(** ** The further properties on the sample inputs *)

(** X2 for the statistics 45 and -45 against the critical value 40. *)
Lemma masked_trend_statistic_sign_witness :
  masked_trend (ee.constant (2 # 1000)) (ee.constant (-45)) 40 (0, 0)%Z =
  masked_trend (ee.constant (2 # 1000)) (ee.constant 45) 40 (0, 0)%Z.
Proof.
  apply (masked_trend_statistic_sign (ee.constant (2 # 1000)) (ee.constant 45)
           (ee.constant (-45)) 40).
  intros px. reflexivity.
Defined.

(** X4 for the period 13: the statistic 3 is masked, the statistic 200
    keeps the slope 0.002. *)
Lemma masked_trend_any_period_witness :
  kendall 13 = Some 26%Z /\
  masked_trend (ee.constant (2 # 1000)) (ee.constant 3) 26 (0, 0)%Z
    = Some NODATA /\
  masked_trend (ee.constant (2 # 1000)) (ee.constant 200) 26 (0, 0)%Z
    = Some (2 # 1000)%Q.
Proof.
  split; [reflexivity | split].
  - destruct (masked_trend_any_period (ee.constant (2 # 1000)) (ee.constant 3)
                13 26 (0, 0)%Z (2 # 1000)%Q 3%Q eq_refl eq_refl eq_refl)
      as [Hsmall _].
    apply Hsmall. discriminate.
  - destruct (masked_trend_any_period (ee.constant (2 # 1000)) (ee.constant 200)
                13 26 (0, 0)%Z (2 # 1000)%Q 200%Q eq_refl eq_refl eq_refl)
      as [_ Hbig].
    apply Hbig; reflexivity.
Defined.

(** X5 for the shortest and the longest period of the table. *)
Lemma kendall_increasing_witness :
  kendall 4 = Some 4%Z /\ kendall 40 = Some 142%Z /\ (4 < 142)%Z.
Proof.
  split; [reflexivity | split; [reflexivity |]].
  apply (kendall_increasing 4 40 4 142); reflexivity.
Defined.

(** X6 for the default years 2003 to 2015 and for a single year. *)
Lemma export_image_years_witness :
  is_Some (image (export (collab := sample_collaborators) 2003 2015
                    default_poly (PyStr "42"))) /\
  ~ is_Some (image (export (collab := sample_collaborators) 2015 2015
                      default_poly (PyStr "42"))).
Proof.
  split.
  - apply (export_image_years (collab := sample_collaborators)). lia.
  - intros Hsome.
    apply (export_image_years (collab := sample_collaborators)) in Hsome. lia.
Defined.

(** X7 on the task that completes. *)
Lemma one_export_per_call_witness :
  exists req,
    submitted (trace (snd (integral_trend (collab := sample_collaborators)
                             remote_completed 3 2003 2015 default_poly
                             (PyStr "42") initial))) = [req] /\
    bucket req = "ldmt"%string /\ fileNamePrefix req = PyStr "42".
Proof.
  destruct (one_export_per_call (collab := sample_collaborators)
              2003 2015 default_poly (PyStr "42") remote_completed 3)
    as (req & rest & _ & Hone & _ & Hprefix & Hbucket & _).
  exists req. split; [exact Hone | split; [exact Hbucket | exact Hprefix]].
Defined.

(** X9 on a task whose status has no state. *)
Lemma immediate_return_witness :
  remote_no_state 0 !! "state" = None /\
  integral_trend (collab := sample_collaborators) remote_no_state 0
    2003 2015 default_poly (PyStr "42") initial =
  (Returned "https://ldmt.storage.googleapis.com/42.tif",
   {| queries := 1;
      trace := [EvStart (export (collab := sample_collaborators) 2003 2015
                           default_poly (PyStr "42"));
                EvStatus] |}).
Proof.
  split; [vm_compute; reflexivity |].
  apply (immediate_return (collab := sample_collaborators)
           2003 2015 default_poly (PyStr "42") remote_no_state 0).
  - vm_compute. discriminate.
  - vm_compute. discriminate.
Defined.

(** X10 on the task that completes at its fourth state read. *)
Lemma waits_before_return_witness :
  exists t,
    trace (snd (integral_trend (collab := sample_collaborators) remote_completed
                  3 2003 2015 default_poly (PyStr "42") initial))
    = t ++ [EvStatus; EvSleep 5].
Proof.
  destruct (waits_before_return (collab := sample_collaborators)
              2003 2015 default_poly (PyStr "42") remote_completed 2 3)
    as (_ & _ & Hlast).
  - vm_compute. reflexivity.
  - lia.
  - exact Hlast.
Defined.

(** X11 on two tasks that differ in all that the loop does not read. *)
Lemma reads_state_and_progress_only_witness :
  remote_completed 1 <> remote_completed_noisy 1 /\
  integral_trend (collab := sample_collaborators) remote_completed 3
    2003 2015 default_poly (PyStr "42") initial =
  integral_trend (collab := sample_collaborators) remote_completed_noisy 3
    2003 2015 default_poly (PyStr "42") initial.
Proof.
  split.
  - intros Heq. apply (f_equal (fun st => st !! "state")) in Heq.
    vm_compute in Heq. discriminate.
  - apply (reads_state_and_progress_only (collab := sample_collaborators)
             2003 2015 default_poly (PyStr "42")
             remote_completed remote_completed_noisy 3).
    + intros n Hn. destruct n as [| [| [| [| n]]]]; [reflexivity .. | lia].
    + intros i Hi. destruct i as [| [| [| i]]]; [reflexivity .. | lia].
Defined.

(** X12 on two calls with the identifier "42". *)
Lemma distinct_identifiers_distinct_locations_witness :
  fst (integral_trend (collab := sample_collaborators) remote_completed 3
         2003 2015 default_poly (PyStr "42") initial)
  = fst (integral_trend (collab := sample_collaborators) remote_done 0
           1970 2015 PyNone (PyStr "42") initial) /\
  "42"%string = "42"%string.
Proof.
  split; [vm_compute; reflexivity |].
  apply (distinct_identifiers_distinct_locations
           (collab := sample_collaborators)
           remote_completed remote_done 3 0 2003 2015 1970 2015
           default_poly PyNone "42" "42"
           "https://ldmt.storage.googleapis.com/42.tif");
    vm_compute; reflexivity.
Defined.

(** X13 on a development request that carries an identifier: the draw 7
    names the output. *)
Lemma run_dev_identifier_witness :
  let params : gmap string pyval :=
    {[ "ENV" := PyStr "dev"; "EXECUTION_ID" := PyStr "42" ]} in
  fst (run (collab := sample_collaborators) remote_completed 3 7 params initial)
    = Returned "https://ldmt.storage.googleapis.com/7.tif".
Proof.
  intros params.
  destruct (run_dev_identifier (collab := sample_collaborators)
              remote_completed 3 7 params PyNone 2003 2015)
    as (_ & _ & Hreturns).
  - vm_compute. reflexivity.
  - vm_compute. reflexivity.
  - vm_compute. reflexivity.
  - apply (Hreturns 3); [vm_compute; reflexivity | lia].
Defined.

(** X14 on a request with an entry the function does not know. *)
Lemma run_ignores_other_keys_witness :
  run (collab := sample_collaborators) remote_completed 3 7
    (<["verbose" := PyInt 1]> {[ "EXECUTION_ID" := PyStr "42" ]}) initial =
  run (collab := sample_collaborators) remote_completed 3 7
    {[ "EXECUTION_ID" := PyStr "42" ]} initial.
Proof.
  rewrite (run_ignores_other_keys (collab := sample_collaborators)
             remote_completed 3 7 {[ "EXECUTION_ID" := PyStr "42" ]}
             "verbose" (PyInt 1)); [reflexivity | discriminate ..].
Defined.
